(** * The Google Cloud Interconnect connection module of pureport/pureport

    A shallow embedding of
    [fabric/plugins/modules/google_cloud_interconnect_connection.py]:
    the request constructor [construct_connection] and the argument schema
    assembled by [main], with the properties the specification states
    about them.

    Python values are a small tagged union, dictionaries are association
    lists in insertion order (the order decides which entry wins when the
    case transform maps two keys to one), strings are ASCII strings, and
    the body of [construct_connection] runs in a state-and-exception monad
    over the Ansible module object.  A second model, [Store], has the lists
    and mappings as objects reached by reference, for what the function
    does to state it did not create. *)

From Stdlib Require Import List String Ascii Bool Arith ZArith Lia.
Import ListNotations.
Local Open Scope string_scope.
Local Open Scope list_scope.

(** ** Python values *)

#[warnings="-register-all"] Inductive value : Type :=
| VNone
| VBool (b : bool)
| VInt (z : Z)
| VStr (s : string)
| VList (l : list value)
| VDict (d : list (string * value)).

(** A [dict] with string keys, in insertion order. *)
Definition dict : Type := list (string * value).

(** The structural induction principle of [value], through the lists. *)
Section ValueInd.
Variable P : value -> Prop.
Hypothesis HNone : P VNone.
Hypothesis HBool : forall b, P (VBool b).
Hypothesis HInt : forall z, P (VInt z).
Hypothesis HStr : forall s, P (VStr s).
Hypothesis HList : forall l, Forall P l -> P (VList l).
Hypothesis HDict : forall d, Forall (fun kv => P (snd kv)) d -> P (VDict d).

Fixpoint value_rect' (v : value) : P v :=
  match v with
  | VNone => HNone
  | VBool b => HBool b
  | VInt z => HInt z
  | VStr s => HStr s
  | VList l =>
      HList l ((fix go (l : list value) : Forall P l :=
                  match l with
                  | [] => Forall_nil P
                  | x :: xs => Forall_cons x (value_rect' x) (go xs)
                  end) l)
  | VDict d =>
      HDict d ((fix go (d : dict) : Forall (fun kv => P (snd kv)) d :=
                  match d with
                  | [] => Forall_nil _
                  | (k, x) :: xs =>
                      Forall_cons (k, x) (value_rect' x) (go xs)
                  end) d)
  end.
End ValueInd.

(** ** Dictionaries *)

(** [d\[k\]] as an option: [None] when [k] is not a key of [d]. *)
Fixpoint dict_lookup (k : string) (d : dict) : option value :=
  match d with
  | [] => None
  | (k', v) :: d' => if String.eqb k k' then Some v else dict_lookup k d'
  end.

(** [d.get(k)]: the value bound to [k], Python's [None] when there is none. *)
Definition dict_get (k : string) (d : dict) : value :=
  match dict_lookup k d with
  | Some v => v
  | None => VNone
  end.

(** [d\[k\] = v]: an existing key keeps its position, a new one goes last. *)
Fixpoint dict_set (k : string) (v : value) (d : dict) : dict :=
  match d with
  | [] => [(k, v)]
  | (k', v') :: d' =>
      if String.eqb k k' then (k, v) :: d' else (k', v') :: dict_set k v d'
  end.

(** [d.update(other)]. *)
Definition dict_update (d other : dict) : dict :=
  fold_left (fun acc kv => dict_set (fst kv) (snd kv) acc) other d.

(** [dict(pairs)] for an iterable of key/value pairs. *)
Definition dict_of_pairs (pairs : list (string * value)) : dict :=
  dict_update [] pairs.

(** [list(d)]: the keys, in order. *)
Definition dict_keys (d : dict) : list string := map fst d.

(** ** Strings *)

Definition is_lower (c : ascii) : bool :=
  let n := nat_of_ascii c in ((97 <=? n) && (n <=? 122))%nat.

Definition is_upper (c : ascii) : bool :=
  let n := nat_of_ascii c in ((65 <=? n) && (n <=? 90))%nat.

Definition upper (c : ascii) : ascii :=
  if is_lower c then ascii_of_nat (nat_of_ascii c - 32) else c.

Definition lower (c : ascii) : ascii :=
  if is_upper c then ascii_of_nat (nat_of_ascii c + 32) else c.

Fixpoint string_map (f : ascii -> ascii) (s : string) : string :=
  match s with
  | EmptyString => EmptyString
  | String c s' => String (f c) (string_map f s')
  end.

(** [s.capitalize()]: first character upper case, the rest lower case. *)
Definition capitalize (s : string) : string :=
  match s with
  | EmptyString => EmptyString
  | String c s' => String (upper c) (string_map lower s')
  end.

(** [s.split(sep)] for a one-character separator; never the empty list. *)
Fixpoint split (sep : ascii) (s : string) : list string :=
  match s with
  | EmptyString => [EmptyString]
  | String c s' =>
      if Ascii.eqb c sep then EmptyString :: split sep s'
      else match split sep s' with
           | [] => [String c EmptyString]
           | w :: ws => String c w :: ws
           end
  end.

(** [''.join(parts)]. *)
Definition join (parts : list string) : string := String.concat "" parts.

(** [x.capitalize() or '_']: the empty string is falsy. *)
Definition capitalize_or_underscore (x : string) : string :=
  match capitalize x with
  | EmptyString => "_"
  | s => s
  end.

(** ** The case transform of [ansible.module_utils.common.dict_transformations]

    [construct_connection] imports [snake_dict_to_camel_dict] from Ansible
    (source lines 519-521).  It is transcribed here from the library:
<<
    def _snake_to_camel(snake, capitalize_first=False):
        if capitalize_first:
            return ''.join(x.capitalize() or '_' for x in snake.split('_'))
        else:
            return snake.split('_')[0] + ''.join(
                x.capitalize() or '_' for x in snake.split('_')[1:])

    def snake_dict_to_camel_dict(snake_dict, capitalize_first=False):
        def camelize(complex_type, capitalize_first=False):
            if complex_type is None:
                return
            new_type = type(complex_type)()
            if isinstance(complex_type, dict):
                for key in complex_type:
                    new_type[_snake_to_camel(key, capitalize_first)] = \
                        camelize(complex_type[key], capitalize_first)
            elif isinstance(complex_type, list):
                for i in range(len(complex_type)):
                    new_type.append(camelize(complex_type[i], capitalize_first))
            else:
                return complex_type
            return new_type
        return camelize(snake_dict, capitalize_first)
>> *)

Definition snake_to_camel (snake : string) (capitalize_first : bool) : string :=
  if capitalize_first then
    join (map capitalize_or_underscore (split "_" snake))
  else
    hd EmptyString (split "_" snake)
    ++ join (map capitalize_or_underscore (tl (split "_" snake))).

Fixpoint camelize (complex_type : value) (capitalize_first : bool) : value :=
  match complex_type with
  | VNone => VNone
  | VDict d =>
      VDict (dict_of_pairs
               (map (fun kv => (snake_to_camel (fst kv) capitalize_first,
                                camelize (snd kv) capitalize_first)) d))
  | VList l => VList (map (fun x => camelize x capitalize_first) l)
  | _ => complex_type
  end.

(** The transform at a dictionary, which is what the module calls it on;
    [camelize_VDict] below relates it to [camelize]. *)
Definition snake_dict_to_camel_dict (snake_dict : dict) : dict :=
  dict_of_pairs
    (map (fun kv => (snake_to_camel (fst kv) false, camelize (snd kv) false))
         snake_dict).

(** ** The module object, exceptions and the monad of the function body *)

(** The [AnsibleModule] instance: the function only touches [module.params]. *)
Record AnsibleModule : Type := { params : dict }.

Inductive exn : Type :=
| TypeError (msg : string)
| Exception (msg : string).

(** A computation over the module object: it ends in a value or a raised
    exception, and hands the module object on in either case. *)
Definition M (A : Type) : Type := AnsibleModule -> (exn + A) * AnsibleModule.

Definition ret {A : Type} (a : A) : M A := fun module => (inr a, module).

Definition bind {A B : Type} (c : M A) (k : A -> M B) : M B :=
  fun module =>
    match c module with
    | (inr a, module') => k a module'
    | (inl e, module') => (inl e, module')
    end.

Declare Scope py_scope.
Delimit Scope py_scope with py.
Notation "x <- c ;; k" := (bind c (fun x => k))
  (at level 61, c at next level, right associativity) : py_scope.
Local Open Scope py_scope.

(** [module.params.get(k)]. *)
Definition params_get (k : string) : M value :=
  fun module => (inr (dict_get k (params module)), module).

Fixpoint mapM {A B : Type} (f : A -> M B) (l : list A) : M (list B) :=
  match l with
  | [] => ret []
  | x :: xs => y <- f x;; ys <- mapM f xs;; ret (y :: ys)
  end.

(** The characters of a string, as the one-character strings Python yields. *)
Fixpoint chars (s : string) : list value :=
  match s with
  | EmptyString => []
  | String c s' => VStr (String c EmptyString) :: chars s'
  end.

(** What a [for] loop over [v] visits: the items of a list, the keys of a
    mapping, the characters of a string, and the [TypeError] Python raises
    for a value that is not iterable.  The cases are those of [value], the
    kinds of value a parameter of the module's schema holds; Python has
    other iterables (tuples, sets) and other values that are not (floats),
    which are outside [value]. *)
Definition iterate (v : value) : exn + list value :=
  match v with
  | VList l => inr l
  | VDict d => inr (map VStr (dict_keys d))
  | VStr s => inr (chars s)
  | VNone => inl (TypeError "'NoneType' object is not iterable")
  | VBool _ => inl (TypeError "'bool' object is not iterable")
  | VInt _ => inl (TypeError "'int' object is not iterable")
  end.

(** A pure result, raised or returned, as a computation. *)
Definition lift {A : Type} (r : exn + A) : M A := fun module => (r, module).

(** [c] run on [module] returns [a] (rather than raising). *)
Definition returns {A : Type} (c : M A) (module : AnsibleModule) (a : A) : Prop :=
  fst (c module) = inr a.

(** [c] run on [module] raises [e]. *)
Definition raises {A : Type} (c : M A) (module : AnsibleModule) (e : exn) : Prop :=
  fst (c module) = inl e.

(** ** [construct_connection] (source lines 540-570) *)

(** The parameters copied by the comprehension of lines 546-556. *)
Definition copied_params : list string :=
  [ "id"; "name"; "description"; "speed"; "high_availability";
    "billing_term"; "customer_networks"; "primary_pairing_key";
    "secondary_pairing_key" ].

Section ConstructConnection.

(** [get_object_link] of [module_utils/pureport_client.py] is imported (line
    524) and its body is not part of the sources: the function is stated
    over any helper, called with the module object in the monad. *)
Variable get_object_link : string -> string -> string -> M value.

Definition construct_connection : M dict :=
  connection <-
    (pairs <- mapM (fun k => v <- params_get k;; ret (k, v)) copied_params;;
     ret (dict_of_pairs pairs));;
  location <- get_object_link "/locations" "location_id" "location_href";;
  enabled <- params_get "nat_enabled";;
  nat_mappings <- params_get "nat_mappings";;
  items <- lift (iterate nat_mappings);;
  let mappings :=
    map (fun nat_mapping => VDict [("native_cidr", nat_mapping)]) items in
  let connection :=
    dict_update connection
      [ ("type", VStr "GOOGLE_CLOUD_INTERCONNECT");
        ("location", location);
        ("nat", VDict [("enabled", enabled); ("mappings", VList mappings)]) ] in
  let connection := snake_dict_to_camel_dict connection in
  tags <- params_get "tags";;
  let connection := dict_update connection [("tags", tags)] in
  ret connection.

End ConstructConnection.

(** Modelled from the spec: [get_object_link] of
    [module_utils/pureport_client.py], whose body is not among the sources.
    Section 4.1 of the spec has it resolve "a location reference (by id or
    by a reference path, mutually exclusive) into a reference object", and
    section 8 has the reference use the id form when [location_id] is set
    and the href form when [location_href] is set instead.
    The spec leaves the shape of a reference object open, so the two ways
    of building one are parameters: [link_of_id path_prefix id] and
    [link_of_href href].  With neither parameter set there is no reference
    ([None]); the schema rejects that case before the function runs. *)
Section ObjectLink.

Variable link_of_id : string -> value -> value.
Variable link_of_href : value -> value.

Definition get_object_link_model
  (path_prefix id_param href_param : string) : M value :=
  id <- params_get id_param;;
  href <- params_get href_param;;
  match id, href with
  | VNone, VNone => ret VNone
  | VNone, _ => ret (link_of_href href)
  | _, _ => ret (link_of_id path_prefix id)
  end.

End ObjectLink.

(** One shape of reference object, the one the module documents for the
    [location] it reports back (an [href], source lines 164-178): the path
    of the object, [path_prefix/id] when it is built from an id, which the
    schema makes a string (the path stops at the slash for another value). *)
Definition href_of_id (path_prefix : string) (id : value) : value :=
  VDict [("href",
          VStr (path_prefix ++ "/" ++ match id with VStr i => i | _ => "" end))].

Definition href_of_href (href : value) : value := VDict [("href", href)].

(** ** The argument schema of [main] (source lines 574-587) *)

Section Main.

(** The schema fragments of the shared helper modules, in the order [main]
    merges them. *)
Variables get_client_argument_spec get_network_argument_spec
  get_state_argument_spec get_resolve_existing_argument_spec
  get_wait_for_server_argument_spec get_connection_argument_spec
  get_cloud_connection_argument_spec : dict.

Definition argument_spec : dict :=
  let argument_spec := [] in
  let argument_spec := dict_update argument_spec get_client_argument_spec in
  let argument_spec := dict_update argument_spec get_network_argument_spec in
  let argument_spec := dict_update argument_spec get_state_argument_spec in
  let argument_spec :=
    dict_update argument_spec get_resolve_existing_argument_spec in
  let argument_spec :=
    dict_update argument_spec get_wait_for_server_argument_spec in
  let argument_spec := dict_update argument_spec get_connection_argument_spec in
  let argument_spec :=
    dict_update argument_spec get_cloud_connection_argument_spec in
  dict_update argument_spec
    [ ("primary_pairing_key",
       VDict [("type", VStr "str"); ("required", VBool true)]);
      ("secondary_pairing_key", VDict [("type", VStr "str")]) ].

End Main.

(** How [AnsibleModule] reads one entry of an argument schema: the declared
    [type], and [required], which is false unless the entry says otherwise. *)
Definition spec_type (entry : value) : value :=
  match entry with
  | VDict d => dict_get "type" d
  | _ => VNone
  end.

Definition spec_required (entry : value) : bool :=
  match entry with
  | VDict d =>
      match dict_lookup "required" d with
      | Some (VBool b) => b
      | _ => false
      end
  | _ => false
  end.

(** ** Values the case transform leaves alone *)

Fixpoint no_underscore (s : string) : bool :=
  match s with
  | EmptyString => true
  | String c s' => negb (Ascii.eqb c "_") && no_underscore s'
  end.

Fixpoint distinct (keys : list string) : bool :=
  match keys with
  | [] => true
  | k :: ks => negb (existsb (String.eqb k) ks) && distinct ks
  end.

(** No mapping inside [v] has an underscore in a key (or a key twice, which
    no Python mapping has). *)
Fixpoint snake_free (v : value) : bool :=
  match v with
  | VDict d =>
      distinct (dict_keys d)
      && forallb (fun kv => no_underscore (fst kv) && snake_free (snd kv)) d
  | VList l => forallb snake_free l
  | _ => true
  end.

(** ** The payload in closed form, and inputs to run the function on *)

(** The payload in closed form: [before] is [module.params] when the copied
    parameters are read, [after] is [module.params] once [get_object_link]
    has returned [location], and [items] are the items of [nat_mappings]. *)
Definition payload_of (before after : dict) (location : value)
  (items : list value) : dict :=
  map (fun k => (snake_to_camel k false, camelize (dict_get k before) false))
      copied_params
  ++ [ ("type", VStr "GOOGLE_CLOUD_INTERCONNECT");
       ("location", camelize location false);
       ("nat",
        VDict [ ("enabled", camelize (dict_get "nat_enabled" after) false);
                ("mappings",
                 VList (map (fun nat_mapping =>
                               VDict [("nativeCidr",
                                       camelize nat_mapping false)])
                            items)) ]);
       ("tags", dict_get "tags" after) ].

(** The keys of a returned payload, in order. *)
Definition payload_keys : list string :=
  map (fun k => snake_to_camel k false) copied_params
  ++ ["type"; "location"; "nat"; "tags"].

(** The example of the module's own documentation with every property
    configured (source lines 91-110), with a tag mapping added. *)
Definition example_module : AnsibleModule :=
  {| params :=
       [ ("name", VStr "My Ansible Google Cloud Interconnect");
         ("speed", VInt 50);
         ("high_availability", VBool true);
         ("location_id", VNone);
         ("location_href", VStr "/locations/us-sea");
         ("billing_term", VStr "HOURLY");
         ("primary_pairing_key", VStr "key/us-west1/1");
         ("secondary_pairing_key", VStr "key/us-west1/2");
         ("description", VStr "My Ansible managed connection");
         ("customer_networks",
          VList [VDict [ ("address", VStr "10.0.0.0/24");
                         ("name", VStr "My CIDR address") ]]);
         ("nat_enabled", VBool true);
         ("nat_mappings", VList [VStr "10.0.0.0/24"]);
         ("tags", VDict [("my_tag", VStr "blue")]) ] |}.

(** The first example of the documentation (source lines 46-59) by location
    id, with the optional parameters left to the defaults
    [customer_networks=\[\]], [nat_enabled=False], [nat_mappings=\[\]]. *)
Definition simple_module : AnsibleModule :=
  {| params :=
       [ ("id", VNone);
         ("name", VStr "My Ansible Google Cloud Interconnect Connection");
         ("description", VNone);
         ("speed", VInt 50);
         ("high_availability", VBool false);
         ("location_id", VStr "us-sea");
         ("location_href", VNone);
         ("billing_term", VStr "HOURLY");
         ("primary_pairing_key", VStr "key/us-west1/1");
         ("secondary_pairing_key", VNone);
         ("customer_networks", VList []);
         ("nat_enabled", VBool false);
         ("nat_mappings", VList []);
         ("tags", VNone) ] |}.

(** A module object whose [nat_mappings] is null. *)
Definition null_mappings_module : AnsibleModule :=
  {| params :=
       [ ("name", VStr "c"); ("location_href", VStr "/locations/us-sea");
         ("nat_enabled", VBool false); ("nat_mappings", VNone) ] |}.

(** A customer network written with an underscore in a key. *)
Definition snake_network_module : AnsibleModule :=
  {| params :=
       [ ("name", VStr "c"); ("location_href", VStr "/locations/us-sea");
         ("customer_networks", VList [VDict [("my_key", VStr "10.0.0.0/24")]]);
         ("nat_enabled", VBool false); ("nat_mappings", VList []) ] |}.

(** The helper with [href] reference objects. *)
Definition href_object_link : string -> string -> string -> M value :=
  get_object_link_model href_of_id href_of_href.

(** The two cases of section 8 of the spec: [location_id] set and
    [location_href] not, with [reference] built from the id, or
    [location_href] set instead, with [reference] built from the href. *)
Definition location_case (link_of_id : string -> value -> value)
  (link_of_href : value -> value) (p : dict) (reference : value) : Prop :=
  (dict_get "location_id" p <> VNone /\ dict_get "location_href" p = VNone
   /\ reference = link_of_id "/locations" (dict_get "location_id" p))
  \/ (dict_get "location_id" p = VNone /\ dict_get "location_href" p <> VNone
      /\ reference = link_of_href (dict_get "location_href" p)).

(** Every copied parameter reaches the payload verbatim under its
    camel-cased key. *)
Definition copies_verbatim (get_object_link : string -> string -> string -> M value)
  (module : AnsibleModule) : Prop :=
  forall payload,
    returns (construct_connection get_object_link) module payload ->
    forall k, In k copied_params ->
      dict_lookup (snake_to_camel k false) payload
      = Some (dict_get k (params module)).

(** ** Further inputs and notions for the properties of the code *)

(** The parameters the body of [construct_connection] reads itself (source
    lines 546-568); [location_id] and [location_href] are read by the
    helper. *)
Definition read_params : list string :=
  copied_params ++ ["nat_enabled"; "nat_mappings"; "tags"].

(** A customer network as the module documents it (source lines 105-107
    and 204-218): an [address] and a [name]. *)
Definition customer_network (address name : string) : value :=
  VDict [("address", VStr address); ("name", VStr name)].

(** A helper that gives up, as one that finds no location would. *)
Definition failing_object_link (path_prefix id_param href_param : string)
  : M value :=
  lift (inl (Exception "no location")).

(** [example_module] with the credentials of the client among the
    parameters, as [main] receives them. *)
Definition credentials_module : AnsibleModule :=
  {| params := ("api_key", VStr "key") :: ("api_secret", VStr "secret")
               :: params example_module |}.

(** A module object whose [nat_mappings] is one bare string. *)
Definition string_mappings_module : AnsibleModule :=
  {| params :=
       [ ("name", VStr "c"); ("location_href", VStr "/locations/us-sea");
         ("nat_enabled", VBool true); ("nat_mappings", VStr "10.0.0.0/24") ] |}.

(** A module object whose [nat_mappings] is a number. *)
Definition int_mappings_module : AnsibleModule :=
  {| params :=
       [ ("name", VStr "c"); ("location_href", VStr "/locations/us-sea");
         ("nat_enabled", VBool true); ("nat_mappings", VInt 24) ] |}.

(** The entry of the first mapping of [ds] that has the key [k]. *)
Fixpoint lookup_first (k : string) (ds : list dict) : option value :=
  match ds with
  | [] => None
  | d :: ds' =>
      match dict_lookup k d with
      | Some v => Some v
      | None => lookup_first k ds'
      end
  end.

(** ** The function over a store of objects

    [construct_connection] once more, with the lists and mappings of
    Python as objects in a store, reached by reference: updating a mapping
    writes to the store, and two references to one object see the same
    contents.  This is the model in which the effects of the function on
    state it did not create can be stated. *)

Module Store.

Definition addr : Type := nat.

(** A Python value: an immutable scalar, or a reference to a list or a
    mapping in the store. *)
Inductive ref_value : Type :=
| RNone
| RBool (b : bool)
| RInt (z : Z)
| RStr (s : string)
| RRef (a : addr).

Inductive object : Type :=
| OList (items : list ref_value)
| ODict (entries : list (string * ref_value)).

(** The state a call can see: every list and mapping there is, at its
    address, and the object the attribute [module.params] refers to. *)
Record world : Type := { objects : list object; params_ref : addr }.

Inductive error : Type :=
| TypeError (msg : string)
| KeyError (key : string)
| IndexError (msg : string)
| AttributeError (msg : string)
| RecursionError (msg : string)
| DanglingReference (a : addr)
| OtherError (msg : string).

Definition H (A : Type) : Type := world -> (error + A) * world.

Definition ret {A : Type} (a : A) : H A := fun w => (inr a, w).

Definition raise {A : Type} (e : error) : H A := fun w => (inl e, w).

Definition bind {A B : Type} (c : H A) (k : A -> H B) : H B :=
  fun w =>
    match c w with
    | (inr a, w') => k a w'
    | (inl e, w') => (inl e, w')
    end.

Declare Scope store_scope.
Delimit Scope store_scope with store.
Notation "x <- c ;; k" := (bind c (fun x => k))
  (at level 61, c at next level, right associativity) : store_scope.
Notation "c ;;; k" := (bind c (fun _ => k))
  (at level 61, right associativity) : store_scope.
Local Open Scope store_scope.

(** A new object, at the next address. *)
Definition new_object (o : object) : H addr :=
  fun w => (inr (List.length (objects w)),
            {| objects := objects w ++ [o]; params_ref := params_ref w |}).

(** The contents of the object at [a]. *)
Definition load (a : addr) : H object :=
  fun w =>
    match nth_error (objects w) a with
    | Some o => (inr o, w)
    | None => (inl (DanglingReference a), w)
    end.

Fixpoint replace {A : Type} (n : nat) (x : A) (l : list A) : list A :=
  match l, n with
  | [], _ => []
  | _ :: l', O => x :: l'
  | y :: l', S n' => y :: replace n' x l'
  end.

(** New contents for the object at [a]: every reference to it sees them. *)
Definition store (a : addr) (o : object) : H unit :=
  fun w => (inr tt,
            {| objects := replace a o (objects w);
               params_ref := params_ref w |}).

Fixpoint entry_lookup (k : string) (entries : list (string * ref_value))
  : option ref_value :=
  match entries with
  | [] => None
  | (k', v) :: entries' =>
      if String.eqb k k' then Some v else entry_lookup k entries'
  end.

Fixpoint entry_set (k : string) (v : ref_value)
  (entries : list (string * ref_value)) : list (string * ref_value) :=
  match entries with
  | [] => [(k, v)]
  | (k', v') :: entries' =>
      if String.eqb k k' then (k, v) :: entries'
      else (k', v') :: entry_set k v entries'
  end.

(** The mapping a value refers to; a value that is no mapping has none of
    the methods of one. *)
Definition load_dict (d : ref_value) : H (list (string * ref_value)) :=
  match d with
  | RRef a =>
      o <- load a;;
      match o with
      | ODict entries => ret entries
      | OList _ => raise (AttributeError "'list' object is not a mapping")
      end
  | _ => raise (AttributeError "object is not a mapping")
  end.

(** [d.get(k)]. *)
Definition dict_get (d : ref_value) (k : string) : H ref_value :=
  entries <- load_dict d;;
  match entry_lookup k entries with
  | Some v => ret v
  | None => ret RNone
  end.

(** [d\[k\]]. *)
Definition dict_getitem (d : ref_value) (k : string) : H ref_value :=
  entries <- load_dict d;;
  match entry_lookup k entries with
  | Some v => ret v
  | None => raise (KeyError k)
  end.

(** [d\[k\] = v], a write to the object [d] refers to. *)
Definition dict_setitem (d : ref_value) (k : string) (v : ref_value) : H unit :=
  match d with
  | RRef a =>
      o <- load a;;
      match o with
      | ODict entries => store a (ODict (entry_set k v entries))
      | OList _ => raise (TypeError "list indices must be integers")
      end
  | _ => raise (TypeError "object does not support item assignment")
  end.

(** [l\[i\]] and [l.append(v)] for a list [l]. *)
Definition list_getitem (l : ref_value) (i : nat) : H ref_value :=
  match l with
  | RRef a =>
      o <- load a;;
      match o with
      | OList items =>
          match nth_error items i with
          | Some v => ret v
          | None => raise (IndexError "list index out of range")
          end
      | ODict _ => raise (KeyError "")
      end
  | _ => raise (TypeError "object is not subscriptable")
  end.

Definition list_append (l : ref_value) (v : ref_value) : H unit :=
  match l with
  | RRef a =>
      o <- load a;;
      match o with
      | OList items => store a (OList (items ++ [v]))
      | ODict _ => raise (AttributeError "'dict' object has no attribute 'append'")
      end
  | _ => raise (AttributeError "object has no attribute 'append'")
  end.

(** A [for] loop over items read beforehand. *)
Fixpoint for_each {A : Type} (l : list A) (body : A -> H unit) : H unit :=
  match l with
  | [] => ret tt
  | x :: xs => body x;;; for_each xs body
  end.

Fixpoint mapM {A B : Type} (f : A -> H B) (l : list A) : H (list B) :=
  match l with
  | [] => ret []
  | x :: xs => y <- f x;; ys <- mapM f xs;; ret (y :: ys)
  end.

(** [d.update(other)]: the entries of [other] are written to [d]. *)
Definition dict_update (d other : ref_value) : H unit :=
  entries <- load_dict other;;
  for_each entries (fun kv => dict_setitem d (fst kv) (snd kv)).

(** [dict(k1=v1, ...)] and [dict(pairs)]: a new mapping. *)
Definition new_dict (pairs : list (string * ref_value)) : H ref_value :=
  a <- new_object (ODict (fold_left (fun acc kv => entry_set (fst kv) (snd kv) acc)
                            pairs []));;
  ret (RRef a).

Fixpoint chars (s : string) : list ref_value :=
  match s with
  | EmptyString => []
  | String c s' => RStr (String c EmptyString) :: chars s'
  end.

(** What a [for] loop over [v] visits. *)
Definition iterate (v : ref_value) : H (list ref_value) :=
  match v with
  | RRef a =>
      o <- load a;;
      match o with
      | OList items => ret items
      | ODict entries => ret (map (fun kv => RStr (fst kv)) entries)
      end
  | RStr s => ret (chars s)
  | RNone => raise (TypeError "'NoneType' object is not iterable")
  | RBool _ => raise (TypeError "'bool' object is not iterable")
  | RInt _ => raise (TypeError "'int' object is not iterable")
  end.

(** [camelize] of Ansible's [snake_dict_to_camel_dict] (quoted above), on
    the store: [new_type] is a new object, filled entry by entry while
    [complex_type] is read.  [depth] is the number of nested calls the
    interpreter still allows; at none, Python raises [RecursionError]. *)
Fixpoint camelize (depth : nat) (complex_type : ref_value)
  (capitalize_first : bool) : H ref_value :=
  match depth with
  | O => raise (RecursionError "maximum recursion depth exceeded")
  | S depth' =>
      match complex_type with
      | RNone => ret RNone
      | RRef a =>
          o <- load a;;
          match o with
          | ODict entries =>
              new_type <- new_object (ODict []);;
              for_each (map fst entries)
                (fun key =>
                   v <- dict_getitem complex_type key;;
                   v' <- camelize depth' v capitalize_first;;
                   dict_setitem (RRef new_type)
                     (snake_to_camel key capitalize_first) v');;;
              ret (RRef new_type)
          | OList items =>
              new_type <- new_object (OList []);;
              for_each (seq 0 (List.length items))
                (fun i =>
                   v <- list_getitem complex_type i;;
                   v' <- camelize depth' v capitalize_first;;
                   list_append (RRef new_type) v');;;
              ret (RRef new_type)
          end
      | _ => ret complex_type
      end
  end.

Definition snake_dict_to_camel_dict (depth : nat) (snake_dict : ref_value)
  : H ref_value :=
  camelize depth snake_dict false.

(** [module.params.get(k)]. *)
Definition params_get (k : string) : H ref_value :=
  fun w => dict_get (RRef (params_ref w)) k w.

Section ConstructConnection.

(** The helper, as before a parameter, and the depth of calls left to the
    interpreter when the case transform starts. *)
Variable get_object_link : string -> string -> string -> H ref_value.
Variable depth : nat.

Definition construct_connection : H ref_value :=
  pairs <- mapM (fun k => v <- params_get k;; ret (k, v)) copied_params;;
  connection <- new_dict pairs;;
  location <- get_object_link "/locations" "location_id" "location_href";;
  enabled <- params_get "nat_enabled";;
  nat_mappings <- params_get "nat_mappings";;
  items <- iterate nat_mappings;;
  records <- mapM (fun nat_mapping => new_dict [("native_cidr", nat_mapping)])
               items;;
  mappings <- new_object (OList records);;
  nat <- new_dict [("enabled", enabled); ("mappings", RRef mappings)];;
  other <- new_dict [ ("type", RStr "GOOGLE_CLOUD_INTERCONNECT");
                      ("location", location);
                      ("nat", nat) ];;
  dict_update connection other;;;
  connection <- snake_dict_to_camel_dict depth connection;;
  tags <- params_get "tags";;
  other <- new_dict [("tags", tags)];;
  dict_update connection other;;;
  ret connection.

End ConstructConnection.

(** Modelled from the spec: [get_object_link] of
    [module_utils/pureport_client.py], as [get_object_link_model] above,
    on the store and with [href] reference objects: a new mapping with the
    [href] of the object. *)
Definition get_object_link_model
  (path_prefix id_param href_param : string) : H ref_value :=
  id <- params_get id_param;;
  href <- params_get href_param;;
  match id, href with
  | RNone, RNone => ret RNone
  | RNone, _ => new_dict [("href", href)]
  | RStr i, _ => new_dict [("href", RStr (path_prefix ++ "/" ++ i))]
  | _, _ => new_dict [("href", RStr (path_prefix ++ "/"))]
  end.

(** A value of the first model as objects of the store. *)
Fixpoint allocate (v : value) : H ref_value :=
  match v with
  | VNone => ret RNone
  | VBool b => ret (RBool b)
  | VInt z => ret (RInt z)
  | VStr s => ret (RStr s)
  | VList l =>
      items <- (fix go (l : list value) : H (list ref_value) :=
                  match l with
                  | [] => ret []
                  | x :: xs => r <- allocate x;; rs <- go xs;; ret (r :: rs)
                  end) l;;
      a <- new_object (OList items);;
      ret (RRef a)
  | VDict d =>
      entries <- (fix go (d : dict) : H (list (string * ref_value)) :=
                    match d with
                    | [] => ret []
                    | (k, x) :: xs =>
                        r <- allocate x;; rs <- go xs;; ret ((k, r) :: rs)
                    end) d;;
      a <- new_object (ODict entries);;
      ret (RRef a)
  end.

(** The value a reference stands for, read [depth] references deep. *)
Fixpoint read_back (depth : nat) (objs : list object) (r : ref_value)
  : option value :=
  match r with
  | RNone => Some VNone
  | RBool b => Some (VBool b)
  | RInt z => Some (VInt z)
  | RStr s => Some (VStr s)
  | RRef a =>
      match depth with
      | O => None
      | S depth' =>
          match nth_error objs a with
          | Some (OList items) =>
              option_map VList
                (fold_right (fun r acc =>
                               match read_back depth' objs r, acc with
                               | Some v, Some vs => Some (v :: vs)
                               | _, _ => None
                               end) (Some []) items)
          | Some (ODict entries) =>
              option_map VDict
                (fold_right (fun kv acc =>
                               match read_back depth' objs (snd kv), acc with
                               | Some v, Some vs => Some ((fst kv, v) :: vs)
                               | _, _ => None
                               end) (Some []) entries)
          | None => None
          end
      end
  end.

(** The world in which [module.params] is the mapping [p] and nothing else
    exists. *)
Definition world_of (p : dict) : world :=
  match allocate (VDict p) {| objects := []; params_ref := 0 |} with
  | (inr (RRef a), w) => {| objects := objects w; params_ref := a |}
  | (_, w) => w
  end.

(** [w] has every object of [w0] at its address with the contents it has
    in [w0], and [module.params] refers to the object it refers to in
    [w0]; what [w] has besides was created since. *)
Definition keeps (w0 w : world) : Prop :=
  params_ref w = params_ref w0
  /\ exists created, objects w = objects w0 ++ created.

(** [r] is no reference to an object of [w0]. *)
Definition created_since (w0 : world) (r : ref_value) : Prop :=
  match r with
  | RRef a => List.length (objects w0) <= a
  | _ => True
  end.

(** Run from a world that keeps [w0], [c] ends in one that keeps [w0],
    whether it returns or raises, and what it returns satisfies [Q]. *)
Definition safe {A : Type} (w0 : world) (c : H A) (Q : A -> Prop) : Prop :=
  forall w, keeps w0 w ->
    keeps w0 (snd (c w)) /\ forall a, fst (c w) = inr a -> Q a.

End Store.

(** [example_module] as a world: its parameter mapping, and the lists and
    mappings it holds, as objects. *)
Definition example_world : Store.world :=
  Store.world_of (params example_module).

(** What the function returns on the parameter mapping [p] in the store,
    read back as a value, and what it returns in the first model. *)
Definition store_result (p : dict) : option value :=
  match Store.construct_connection Store.get_object_link_model 1000
          (Store.world_of p) with
  | (inr r, w) => Store.read_back 1000 (Store.objects w) r
  | (inl _, _) => None
  end.

Definition value_result (p : dict) : option value :=
  match fst (construct_connection href_object_link {| params := p |}) with
  | inr payload => Some (VDict payload)
  | inl _ => None
  end.

(** ** Facts about dictionaries *)

Lemma dict_lookup_set_same (k : string) (v : value) (d : dict) :
  dict_lookup k (dict_set k v d) = Some v.
Proof.
  induction d as [|[k' v'] d IH]; simpl.
  - now rewrite String.eqb_refl.
  - destruct (String.eqb k k') eqn:E; simpl; rewrite ?String.eqb_refl; trivial.
    now rewrite E.
Qed.

Lemma dict_lookup_set_other (k k' : string) (v : value) (d : dict) :
  k <> k' -> dict_lookup k (dict_set k' v d) = dict_lookup k d.
Proof.
  intros Hne. induction d as [|[k0 v0] d IH]; simpl.
  - apply String.eqb_neq in Hne. now rewrite Hne.
  - destruct (String.eqb k' k0) eqn:E; simpl.
    + apply String.eqb_eq in E. subst k0.
      apply String.eqb_neq in Hne. now rewrite Hne.
    + now rewrite IH.
Qed.

Lemma dict_set_fresh (k : string) (v : value) (d : dict) :
  dict_lookup k d = None -> dict_set k v d = d ++ [(k, v)].
Proof.
  induction d as [|[k' v'] d IH]; simpl; trivial.
  destruct (String.eqb k k'); [discriminate|].
  intros H. now rewrite IH.
Qed.

Lemma dict_lookup_app_fresh (k k' : string) (v : value) (d : dict) :
  dict_lookup k d = None -> String.eqb k k' = false ->
  dict_lookup k (d ++ [(k', v)]) = None.
Proof.
  intros Hd Hk. induction d as [|[k0 v0] d IH]; simpl in *.
  - now rewrite Hk.
  - destruct (String.eqb k k0); [discriminate|]. auto.
Qed.

(** Updating with pairs whose keys are new and pairwise distinct appends
    them. *)
Lemma dict_update_fresh (other d : dict) :
  distinct (dict_keys other) = true ->
  (forall k, In k (dict_keys other) -> dict_lookup k d = None) ->
  dict_update d other = d ++ other.
Proof.
  unfold dict_update. revert d.
  induction other as [|[k v] other IH]; intros d Hdis Hfresh; simpl.
  - now rewrite app_nil_r.
  - simpl in Hdis. apply andb_true_iff in Hdis as [Hk Hdis].
    apply negb_true_iff in Hk.
    rewrite dict_set_fresh by (apply Hfresh; simpl; auto).
    rewrite IH; trivial.
    + now rewrite <- app_assoc.
    + intros k' Hin. apply dict_lookup_app_fresh.
      * apply Hfresh. simpl. auto.
      * destruct (String.eqb k' k) eqn:E; trivial.
        apply String.eqb_eq in E. subst k'.
        assert (existsb (String.eqb k) (dict_keys other) = true) as Hex.
        { apply existsb_exists. exists k. split; trivial.
          apply String.eqb_refl. }
        congruence.
Qed.

Lemma dict_of_pairs_distinct (pairs : dict) :
  distinct (dict_keys pairs) = true -> dict_of_pairs pairs = pairs.
Proof.
  intros H. unfold dict_of_pairs. now rewrite dict_update_fresh.
Qed.

(** ** Facts about the case transform *)

Lemma split_no_underscore (s : string) :
  no_underscore s = true -> split "_" s = [s].
Proof.
  induction s as [|c s IH]; simpl; trivial.
  intros H. apply andb_true_iff in H as [Hc Hs].
  apply negb_true_iff in Hc. rewrite Hc, IH; trivial.
Qed.

Lemma append_empty_r (s : string) : (s ++ "")%string = s.
Proof.
  induction s as [|c s IH]; simpl; [trivial | now rewrite IH].
Qed.

Lemma snake_to_camel_no_underscore (s : string) :
  no_underscore s = true -> snake_to_camel s false = s.
Proof.
  intros H. unfold snake_to_camel. rewrite split_no_underscore by trivial.
  simpl. apply append_empty_r.
Qed.

Lemma camelize_VDict (d : dict) :
  camelize (VDict d) false = VDict (snake_dict_to_camel_dict d).
Proof. reflexivity. Qed.

(** The transform is the identity on a value with no underscore in any key. *)
Lemma camelize_snake_free (v : value) :
  snake_free v = true -> camelize v false = v.
Proof.
  induction v as [| | | |l IH|d IH] using value_rect'; trivial.
  - simpl. intros H. f_equal. rewrite forallb_forall in H.
    rewrite <- (map_id l) at 2. apply map_ext_in.
    intros x Hx. rewrite Forall_forall in IH. auto.
  - intros H. change (snake_free (VDict d)) with
      (distinct (dict_keys d)
       && forallb (fun kv => no_underscore (fst kv) && snake_free (snd kv)) d)
      in H.
    apply andb_true_iff in H as [Hdis Hall].
    rewrite forallb_forall in Hall. rewrite Forall_forall in IH.
    rewrite camelize_VDict. unfold snake_dict_to_camel_dict.
    assert (map (fun kv => (snake_to_camel (fst kv) false,
                            camelize (snd kv) false)) d = d) as ->.
    { rewrite <- (map_id d) at 2. apply map_ext_in.
      intros [k x] Hin. cbn [fst snd].
      specialize (Hall _ Hin). cbn [fst snd] in Hall.
      apply andb_true_iff in Hall as [Hk Hx].
      rewrite snake_to_camel_no_underscore by trivial.
      pose proof (IH _ Hin Hx) as E. cbn [snd] in E. now rewrite E. }
    now rewrite dict_of_pairs_distinct.
Qed.

(** The payload as the body of the function assembles it, in closed form. *)
Lemma payload_assembly
  (v1 v2 v3 v4 v5 v6 v7 v8 v9 location enabled tags : value)
  (items : list value) :
  dict_update
    (snake_dict_to_camel_dict
       (dict_update
          (dict_of_pairs
             [ ("id", v1); ("name", v2); ("description", v3); ("speed", v4);
               ("high_availability", v5); ("billing_term", v6);
               ("customer_networks", v7); ("primary_pairing_key", v8);
               ("secondary_pairing_key", v9) ])
          [ ("type", VStr "GOOGLE_CLOUD_INTERCONNECT");
            ("location", location);
            ("nat",
             VDict [ ("enabled", enabled);
                     ("mappings",
                      VList (map (fun nat_mapping =>
                                    VDict [("native_cidr", nat_mapping)])
                                 items)) ]) ]))
    [("tags", tags)]
  = [ ("id", camelize v1 false); ("name", camelize v2 false);
      ("description", camelize v3 false); ("speed", camelize v4 false);
      ("highAvailability", camelize v5 false);
      ("billingTerm", camelize v6 false);
      ("customerNetworks", camelize v7 false);
      ("primaryPairingKey", camelize v8 false);
      ("secondaryPairingKey", camelize v9 false);
      ("type", VStr "GOOGLE_CLOUD_INTERCONNECT");
      ("location", camelize location false);
      ("nat",
       VDict [ ("enabled", camelize enabled false);
               ("mappings",
                VList (map (fun nat_mapping =>
                              VDict [("nativeCidr",
                                      camelize nat_mapping false)])
                           items)) ]);
      ("tags", tags) ].
Proof.
  assert (camelize
            (VDict [ ("enabled", enabled);
                     ("mappings",
                      VList (map (fun nat_mapping =>
                                    VDict [("native_cidr", nat_mapping)])
                                 items)) ]) false
          = VDict [ ("enabled", camelize enabled false);
                    ("mappings",
                     VList (map (fun nat_mapping =>
                                   VDict [("nativeCidr",
                                           camelize nat_mapping false)])
                                items)) ]) as Hnat.
  { change (VDict [ ("enabled", camelize enabled false);
                    ("mappings",
                     VList (map (fun x => camelize x false)
                              (map (fun nat_mapping =>
                                      VDict [("native_cidr", nat_mapping)])
                                 items))) ]
            = VDict [ ("enabled", camelize enabled false);
                      ("mappings",
                       VList (map (fun nat_mapping =>
                                     VDict [("nativeCidr",
                                             camelize nat_mapping false)])
                                  items)) ]).
    now rewrite map_map. }
  rewrite <- Hnat. reflexivity.
Qed.

(** ** Properties of [construct_connection] over any helper *)

Section Properties.

Variable get_object_link : string -> string -> string -> M value.

(** The call of source line 559. *)
Local Notation "'location_call'" :=
  (get_object_link "/locations" "location_id" "location_href").

(** The function either passes on what [get_object_link] raised, or raises
    the [TypeError] of iterating [nat_mappings], or returns the payload. *)
Lemma construct_connection_run (module : AnsibleModule) :
  construct_connection get_object_link module =
  match location_call module with
  | (inl e, module') => (inl e, module')
  | (inr location, module') =>
      match iterate (dict_get "nat_mappings" (params module')) with
      | inl e => (inl e, module')
      | inr items =>
          (inr (payload_of (params module) (params module') location items),
           module')
      end
  end.
Proof.
  cbv [construct_connection bind mapM copied_params params_get ret lift].
  destruct (location_call module) as [[e|location] module']; trivial.
  destruct (iterate (dict_get "nat_mappings" (params module'))) as [e|items];
    trivial.
  now rewrite payload_assembly.
Qed.

Lemma returns_payload_of (module : AnsibleModule) (payload : dict) :
  returns (construct_connection get_object_link) module payload ->
  exists location module' items,
    location_call module = (inr location, module')
    /\ iterate (dict_get "nat_mappings" (params module')) = inr items
    /\ payload = payload_of (params module) (params module') location items.
Proof.
  unfold returns. rewrite construct_connection_run.
  destruct (location_call module) as [[e|location] module']; [discriminate|].
  destruct (iterate (dict_get "nat_mappings" (params module')))
    as [e|items] eqn:Hit; [discriminate|].
  simpl. intros [= <-]. now exists location, module', items.
Qed.

Ltac payload_shape H :=
  apply returns_payload_of in H;
  destruct H as (?location & ?module' & ?items & ?Hlink & ?Hiter & ->).

(** C1. Whatever the module parameters are, the [type] entry of a returned
    payload is the string [GOOGLE_CLOUD_INTERCONNECT]. *)
Theorem construct_connection_type (module : AnsibleModule) (payload : dict) :
  returns (construct_connection get_object_link) module payload ->
  dict_lookup "type" payload = Some (VStr "GOOGLE_CLOUD_INTERCONNECT").
Proof. intros H. payload_shape H. reflexivity. Qed.

(** C5. When [secondary_pairing_key] is omitted (the parameter mapping has
    no value for it), a returned payload has no secondary pairing key entry
    or an empty one, under the camel-cased key and under the original one. *)
Theorem construct_connection_secondary_omitted
  (module : AnsibleModule) (payload : dict) :
  dict_get "secondary_pairing_key" (params module) = VNone ->
  returns (construct_connection get_object_link) module payload ->
  forall key, In key ["secondaryPairingKey"; "secondary_pairing_key"] ->
    dict_lookup key payload = None \/ dict_lookup key payload = Some VNone.
Proof.
  intros Hkey H key Hin. payload_shape H.
  destruct Hin as [<-|[<-|[]]].
  - right. unfold payload_of, copied_params. cbn [map]. rewrite Hkey.
    reflexivity.
  - left. reflexivity.
Qed.

(** C6 (amended). Every copied parameter reaches a returned payload under
    its camel-cased key with the case transform applied to its value; the
    value is verbatim whenever no mapping inside it has an underscore in a
    key, so for every null, boolean, integer, string and list of those. *)
Theorem construct_connection_copies
  (module : AnsibleModule) (payload : dict) (k : string) :
  returns (construct_connection get_object_link) module payload ->
  In k copied_params ->
  dict_lookup (snake_to_camel k false) payload
  = Some (camelize (dict_get k (params module)) false)
  /\ (snake_free (dict_get k (params module)) = true ->
      dict_lookup (snake_to_camel k false) payload
      = Some (dict_get k (params module))).
Proof.
  intros H Hin. payload_shape H.
  assert (dict_lookup (snake_to_camel k false)
            (payload_of (params module) (params module') location items)
          = Some (camelize (dict_get k (params module)) false)) as Hcopy.
  { unfold copied_params in Hin. simpl in Hin.
    repeat (destruct Hin as [<-|Hin]; [reflexivity|]). destruct Hin. }
  split; trivial.
  intros Hfree. now rewrite Hcopy, camelize_snake_free.
Qed.

(** C9. A returned payload has an entry for each of the thirteen keys: the
    nine copied parameters camel-cased, then [type], [location], [nat] and
    [tags]; the key of an unset copied parameter is there, bound to null. *)
Theorem construct_connection_keys (module : AnsibleModule) (payload : dict) :
  returns (construct_connection get_object_link) module payload ->
  dict_keys payload = payload_keys
  /\ (forall key, In key payload_keys -> dict_lookup key payload <> None)
  /\ (forall k, In k copied_params ->
        dict_get k (params module) = VNone ->
        dict_lookup (snake_to_camel k false) payload = Some VNone).
Proof.
  intros H. payload_shape H. split; [reflexivity|split].
  - intros key Hin. unfold payload_keys, copied_params in Hin. simpl in Hin.
    repeat (destruct Hin as [<-|Hin]; [discriminate|]). destruct Hin.
  - intros k Hin Hnull. unfold copied_params in Hin. simpl in Hin.
    repeat (destruct Hin as [<-|Hin];
            [unfold payload_of, copied_params; cbn [map];
             rewrite Hnull; reflexivity|]).
    destruct Hin.
Qed.

(** From here on the helper leaves the module object as it found it. *)
Hypothesis get_object_link_frame :
  forall path_prefix id_param href_param module,
    snd (get_object_link path_prefix id_param href_param module) = module.

Lemma location_of_frame (module module' : AnsibleModule) (r : exn + value) :
  location_call module = (r, module') -> module' = module.
Proof.
  intros H.
  pose proof (get_object_link_frame "/locations" "location_id" "location_href"
                module) as Hf.
  rewrite H in Hf. exact Hf.
Qed.

(** C2. With [nat_enabled] true and [nat_mappings] the list of the one
    string [10.0.0.0/24], the function returns whenever the helper does,
    and the [nat] entry of a returned payload has [enabled] true and one
    mapping, whose [nativeCidr] is [10.0.0.0/24]. *)
Theorem construct_connection_nat (module : AnsibleModule) :
  dict_get "nat_enabled" (params module) = VBool true ->
  dict_get "nat_mappings" (params module) = VList [VStr "10.0.0.0/24"] ->
  (forall location, returns location_call module location ->
     exists payload,
       returns (construct_connection get_object_link) module payload)
  /\ (forall payload,
        returns (construct_connection get_object_link) module payload ->
        dict_lookup "nat" payload
        = Some (VDict [ ("enabled", VBool true);
                        ("mappings",
                         VList [VDict [("nativeCidr",
                                        VStr "10.0.0.0/24")]]) ])).
Proof.
  intros Hen Hmap. split.
  - intros location Hloc. unfold returns in *.
    rewrite construct_connection_run.
    destruct (location_call module) as [r module'] eqn:E.
    apply location_of_frame in E as ->. simpl in Hloc. subst r.
    rewrite Hmap. simpl. eauto.
  - intros payload H. payload_shape H.
    apply location_of_frame in Hlink as ->.
    rewrite Hmap in Hiter. injection Hiter as <-.
    unfold payload_of, copied_params. cbn [map]. rewrite Hen. reflexivity.
Qed.

(** C3. The [tags] entry of a returned payload is the [tags] parameter as
    it was given, keys included: the case transform does not reach it. *)
Theorem construct_connection_tags (module : AnsibleModule) (payload : dict) :
  returns (construct_connection get_object_link) module payload ->
  dict_lookup "tags" payload = Some (dict_get "tags" (params module)).
Proof.
  intros H. payload_shape H. apply location_of_frame in Hlink as ->.
  reflexivity.
Qed.

(** C10. When [nat_mappings] is absent or null the function returns no
    payload: once the helper has returned, iterating the parameter raises
    the [TypeError] of a null that is not iterable. *)
Theorem construct_connection_null_mappings (module : AnsibleModule) :
  dict_get "nat_mappings" (params module) = VNone ->
  (forall payload,
     ~ returns (construct_connection get_object_link) module payload)
  /\ (forall location, returns location_call module location ->
        raises (construct_connection get_object_link) module
          (TypeError "'NoneType' object is not iterable")).
Proof.
  intros Hnull. split.
  - intros payload H. payload_shape H.
    apply location_of_frame in Hlink as ->.
    rewrite Hnull in Hiter. discriminate.
  - intros location Hloc. unfold returns, raises in *.
    rewrite construct_connection_run.
    destruct (location_call module) as [r module'] eqn:E.
    apply location_of_frame in E as ->. simpl in Hloc. subst r.
    now rewrite Hnull.
Qed.

End Properties.

(** ** The location reference, over the helper as the spec describes it *)

Lemma get_object_link_model_frame
  (link_of_id : string -> value -> value) (link_of_href : value -> value)
  (path_prefix id_param href_param : string) (module : AnsibleModule) :
  snd (get_object_link_model link_of_id link_of_href
         path_prefix id_param href_param module) = module.
Proof.
  cbv [get_object_link_model bind params_get].
  destruct (dict_get id_param (params module));
    destruct (dict_get href_param (params module)); reflexivity.
Qed.

(** C4. With [location_id] set and [location_href] not, the [location]
    entry of a returned payload is the reference object built from the id
    under [/locations]; with [location_href] set instead, it is the one
    built from the href.  The reference object has no underscore in a key,
    as one made of [href] and [id] has none. *)
Theorem construct_connection_location
  (link_of_id : string -> value -> value) (link_of_href : value -> value)
  (module : AnsibleModule) (payload : dict) (reference : value) :
  returns (construct_connection
             (get_object_link_model link_of_id link_of_href)) module payload ->
  location_case link_of_id link_of_href (params module) reference ->
  snake_free reference = true ->
  dict_lookup "location" payload = Some reference.
Proof.
  intros H Hcase Hfree. apply returns_payload_of in H.
  destruct H as (location & module' & items & Hlink & _ & ->).
  assert (location = reference) as ->.
  { revert Hlink. cbv [get_object_link_model bind params_get ret].
    destruct Hcase as [(Hid & Hhref & ->)|(Hid & Hhref & ->)].
    - rewrite Hhref.
      destruct (dict_get "location_id" (params module)); try congruence;
        now intros [= <- _].
    - rewrite Hid.
      destruct (dict_get "location_href" (params module)); try congruence;
        now intros [= <- _]. }
  change (Some (camelize reference false) = Some reference).
  now rewrite camelize_snake_free.
Qed.

(** ** The argument schema *)

(** C7. Whatever the shared fragments declare, the schema of [main] has
    [primary_pairing_key] as a required string and [secondary_pairing_key]
    as a string that is not required. *)
Theorem argument_spec_pairing_keys (client network state resolve_existing
  wait_for_server connection cloud_connection : dict) :
  let schema := argument_spec client network state resolve_existing
                  wait_for_server connection cloud_connection in
  exists primary secondary,
    dict_lookup "primary_pairing_key" schema = Some primary
    /\ spec_type primary = VStr "str" /\ spec_required primary = true
    /\ dict_lookup "secondary_pairing_key" schema = Some secondary
    /\ spec_type secondary = VStr "str" /\ spec_required secondary = false.
Proof.
  intros schema.
  exists (VDict [("type", VStr "str"); ("required", VBool true)]),
         (VDict [("type", VStr "str")]).
  subst schema. unfold argument_spec. cbv zeta.
  set (fragments := dict_update _ cloud_connection).
  unfold dict_update at 1. cbn [fold_left fst snd].
  repeat split.
  - rewrite dict_lookup_set_other by discriminate.
    apply dict_lookup_set_same.
  - apply dict_lookup_set_same.
Qed.

(** ** The theorems at the documented examples *)

(** What the function returns on [example_module] and on [simple_module]. *)
Lemma example_module_returns :
  returns (construct_connection href_object_link) example_module
    (payload_of (params example_module) (params example_module)
       (VDict [("href", VStr "/locations/us-sea")]) [VStr "10.0.0.0/24"]).
Proof. reflexivity. Qed.

Lemma simple_module_returns :
  returns (construct_connection href_object_link) simple_module
    (payload_of (params simple_module) (params simple_module)
       (VDict [("href", VStr "/locations/us-sea")]) []).
Proof. reflexivity. Qed.

Lemma construct_connection_type_witness :
  dict_lookup "type"
    (payload_of (params example_module) (params example_module)
       (VDict [("href", VStr "/locations/us-sea")]) [VStr "10.0.0.0/24"])
  = Some (VStr "GOOGLE_CLOUD_INTERCONNECT").
Proof.
  apply (construct_connection_type href_object_link example_module).
  reflexivity.
Defined.

Lemma construct_connection_nat_witness :
  exists payload,
    returns (construct_connection href_object_link) example_module payload
    /\ dict_lookup "nat" payload
       = Some (VDict [ ("enabled", VBool true);
                       ("mappings",
                        VList [VDict [("nativeCidr", VStr "10.0.0.0/24")]]) ]).
Proof.
  destruct (construct_connection_nat href_object_link
              (get_object_link_model_frame href_of_id href_of_href)
              example_module eq_refl eq_refl) as [Hreturns Hnat].
  destruct (Hreturns (VDict [("href", VStr "/locations/us-sea")]) eq_refl)
    as [payload Hpayload].
  exists payload. split; [exact Hpayload | exact (Hnat payload Hpayload)].
Defined.

Lemma construct_connection_tags_witness :
  dict_lookup "tags"
    (payload_of (params example_module) (params example_module)
       (VDict [("href", VStr "/locations/us-sea")]) [VStr "10.0.0.0/24"])
  = Some (VDict [("my_tag", VStr "blue")]).
Proof.
  apply (construct_connection_tags href_object_link
           (get_object_link_model_frame href_of_id href_of_href)
           example_module).
  reflexivity.
Defined.

Lemma construct_connection_location_witness :
  dict_lookup "location"
    (payload_of (params simple_module) (params simple_module)
       (VDict [("href", VStr "/locations/us-sea")]) [])
  = Some (VDict [("href", VStr "/locations/us-sea")])
  /\ dict_lookup "location"
       (payload_of (params example_module) (params example_module)
          (VDict [("href", VStr "/locations/us-sea")]) [VStr "10.0.0.0/24"])
     = Some (VDict [("href", VStr "/locations/us-sea")]).
Proof.
  split.
  - apply (construct_connection_location href_of_id href_of_href
             simple_module).
    + reflexivity.
    + left. repeat split. discriminate.
    + reflexivity.
  - apply (construct_connection_location href_of_id href_of_href
             example_module).
    + reflexivity.
    + right. repeat split. discriminate.
    + reflexivity.
Defined.

Lemma construct_connection_secondary_omitted_witness :
  dict_lookup "secondaryPairingKey"
    (payload_of (params simple_module) (params simple_module)
       (VDict [("href", VStr "/locations/us-sea")]) []) = None
  \/ dict_lookup "secondaryPairingKey"
       (payload_of (params simple_module) (params simple_module)
          (VDict [("href", VStr "/locations/us-sea")]) []) = Some VNone.
Proof.
  apply (construct_connection_secondary_omitted href_object_link
           simple_module).
  - reflexivity.
  - reflexivity.
  - simpl. auto.
Defined.

Lemma construct_connection_copies_witness :
  dict_lookup "customerNetworks"
    (payload_of (params example_module) (params example_module)
       (VDict [("href", VStr "/locations/us-sea")]) [VStr "10.0.0.0/24"])
  = Some (VList [VDict [ ("address", VStr "10.0.0.0/24");
                         ("name", VStr "My CIDR address") ]]).
Proof.
  apply (construct_connection_copies href_object_link example_module _
           "customer_networks").
  - reflexivity.
  - simpl. auto 10.
  - reflexivity.
Defined.

Lemma construct_connection_keys_witness :
  dict_keys
    (payload_of (params simple_module) (params simple_module)
       (VDict [("href", VStr "/locations/us-sea")]) [])
  = [ "id"; "name"; "description"; "speed"; "highAvailability";
      "billingTerm"; "customerNetworks"; "primaryPairingKey";
      "secondaryPairingKey"; "type"; "location"; "nat"; "tags" ]
  /\ dict_lookup "description"
       (payload_of (params simple_module) (params simple_module)
          (VDict [("href", VStr "/locations/us-sea")]) []) = Some VNone.
Proof.
  destruct (construct_connection_keys href_object_link simple_module _
              simple_module_returns) as (Hkeys & _ & Hnull).
  split.
  - exact Hkeys.
  - apply (Hnull "description"); [simpl; auto | reflexivity].
Defined.

Lemma construct_connection_null_mappings_witness :
  raises (construct_connection href_object_link) null_mappings_module
    (TypeError "'NoneType' object is not iterable").
Proof.
  destruct (construct_connection_null_mappings href_object_link
              (get_object_link_model_frame href_of_id href_of_href)
              null_mappings_module eq_refl) as [_ Hraises].
  apply (Hraises (VDict [("href", VStr "/locations/us-sea")])).
  reflexivity.
Defined.

(** C6, as the spec has it, fails on a customer network with an underscore
    in a key: [my_key] comes out as [myKey]. *)
Lemma copies_verbatim_counterexample :
  ~ copies_verbatim href_object_link snake_network_module.
Proof.
  intros H.
  specialize (H (payload_of (params snake_network_module)
                   (params snake_network_module)
                   (VDict [("href", VStr "/locations/us-sea")]) [])
                eq_refl "customer_networks").
  discriminate H. simpl. auto 10.
Qed.

(** ** Further properties of [construct_connection] *)

Section Behaviour.

Variable get_object_link : string -> string -> string -> M value.

Local Notation "'location_call'" :=
  (get_object_link "/locations" "location_id" "location_href").

(** X1. An exception of the helper is the exception of the function: the
    location is resolved (line 559) before [nat_mappings] is read (line
    563), so it is raised even where iterating [nat_mappings] would fail. *)
Theorem construct_connection_helper_raises (module : AnsibleModule) (e : exn) :
  raises location_call module e ->
  raises (construct_connection get_object_link) module e.
Proof.
  unfold raises. rewrite construct_connection_run.
  destruct (location_call module) as [[e'|location] module']; simpl;
    intros H; [now injection H as -> | discriminate H].
Qed.

(** X2. The [location] entry of a returned payload is what the helper
    returned: a reference with no underscore in a key, or null, arrives as
    it is. *)
Theorem construct_connection_location_entry
  (module : AnsibleModule) (payload : dict) (location : value) :
  returns location_call module location ->
  returns (construct_connection get_object_link) module payload ->
  snake_free location = true ->
  dict_lookup "location" payload = Some location.
Proof.
  intros Hloc H Hfree. apply returns_payload_of in H.
  destruct H as (location' & module' & items & Hlink & _ & ->).
  unfold returns in Hloc. rewrite Hlink in Hloc. injection Hloc as ->.
  change (Some (camelize location false) = Some location).
  now rewrite camelize_snake_free.
Qed.

(** X3. Customer networks of the documented shape, an [address] and a
    [name], reach the payload under [customerNetworks] as they were given,
    in number and in order. *)
Theorem construct_connection_customer_networks
  (module : AnsibleModule) (payload : dict) (nets : list (string * string)) :
  dict_get "customer_networks" (params module)
  = VList (map (fun an => customer_network (fst an) (snd an)) nets) ->
  returns (construct_connection get_object_link) module payload ->
  dict_lookup "customerNetworks" payload
  = Some (VList (map (fun an => customer_network (fst an) (snd an)) nets)).
Proof.
  intros Hnets H. apply returns_payload_of in H.
  destruct H as (location & module' & items & _ & _ & ->).
  change (Some (camelize (dict_get "customer_networks" (params module)) false)
          = Some (VList (map (fun an => customer_network (fst an) (snd an))
                           nets))).
  rewrite Hnets. f_equal. apply camelize_snake_free.
  change (forallb snake_free
            (map (fun an => customer_network (fst an) (snd an)) nets) = true).
  apply forallb_forall. intros x Hx.
  apply in_map_iff in Hx as (an & <- & _). reflexivity.
Qed.

Hypothesis get_object_link_frame :
  forall path_prefix id_param href_param module,
    snd (get_object_link path_prefix id_param href_param module) = module.

Lemma location_call_frame (module module' : AnsibleModule) (r : exn + value) :
  location_call module = (r, module') -> module' = module.
Proof.
  intros H.
  pose proof (get_object_link_frame "/locations" "location_id" "location_href"
                module) as Hf.
  rewrite H in Hf. exact Hf.
Qed.


(** X5. Once the helper has returned, a [nat_mappings] that is null, a
    boolean or an integer makes the function raise the [TypeError] of
    Python for a value of that type that is not iterable. *)
Theorem construct_connection_raises_type_error
  (module : AnsibleModule) (location : value) (type_name : string) :
  returns location_call module location ->
  (dict_get "nat_mappings" (params module) = VNone /\ type_name = "NoneType")
  \/ ((exists b, dict_get "nat_mappings" (params module) = VBool b)
      /\ type_name = "bool")
  \/ ((exists z, dict_get "nat_mappings" (params module) = VInt z)
      /\ type_name = "int") ->
  raises (construct_connection get_object_link) module
    (TypeError ("'" ++ type_name ++ "' object is not iterable")).
Proof.
  unfold returns, raises. rewrite construct_connection_run.
  destruct (location_call module) as [r module'] eqn:E.
  apply location_call_frame in E as ->. simpl. intros -> Htype.
  destruct Htype as [[-> ->]|[[[b ->] ->]|[[z ->] ->]]]; reflexivity.
Qed.

(** X6. For a flag and a list of mappings without an underscore in a key
    (booleans, null, CIDR strings), the [nat] entry has the flag as given
    under [enabled] and one [nativeCidr] record for each item of
    [nat_mappings], in the order of the list. *)
Theorem construct_connection_nat_entries
  (module : AnsibleModule) (payload : dict) (enabled : value)
  (l : list value) :
  dict_get "nat_enabled" (params module) = enabled ->
  dict_get "nat_mappings" (params module) = VList l ->
  snake_free enabled = true ->
  forallb snake_free l = true ->
  returns (construct_connection get_object_link) module payload ->
  dict_lookup "nat" payload
  = Some (VDict [ ("enabled", enabled);
                  ("mappings",
                   VList (map (fun nat_mapping =>
                                 VDict [("nativeCidr", nat_mapping)]) l)) ]).
Proof.
  intros Hen Hmap Hfree Hall H. apply returns_payload_of in H.
  destruct H as (location & module' & items & Hlink & Hiter & ->).
  apply location_call_frame in Hlink as ->.
  rewrite Hmap in Hiter. injection Hiter as <-.
  change (Some (VDict [ ("enabled",
                         camelize (dict_get "nat_enabled" (params module))
                           false);
                        ("mappings",
                         VList (map (fun nat_mapping =>
                                       VDict [("nativeCidr",
                                               camelize nat_mapping false)])
                                  l)) ])
          = Some (VDict [ ("enabled", enabled);
                          ("mappings",
                           VList (map (fun nat_mapping =>
                                         VDict [("nativeCidr", nat_mapping)])
                                    l)) ])).
  rewrite Hen, camelize_snake_free by trivial.
  do 6 f_equal. apply map_ext_in. intros x Hx.
  rewrite forallb_forall in Hall. now rewrite camelize_snake_free by auto.
Qed.

(** X7. A [nat_mappings] that is one bare string is not taken as one CIDR:
    the comprehension visits its characters, so there are as many mappings
    as the string has characters, each with a one-character [nativeCidr]. *)
Theorem construct_connection_string_mappings
  (module : AnsibleModule) (payload : dict) (s : string) :
  dict_get "nat_mappings" (params module) = VStr s ->
  returns (construct_connection get_object_link) module payload ->
  exists mappings,
    dict_lookup "nat" payload
    = Some (VDict [ ("enabled",
                     camelize (dict_get "nat_enabled" (params module)) false);
                    ("mappings", VList mappings) ])
    /\ List.length mappings = String.length s
    /\ forall i, (i < String.length s)%nat ->
         exists c, String.get i s = Some c
                   /\ nth_error mappings i
                      = Some (VDict [("nativeCidr",
                                      VStr (String c EmptyString))]).
Proof.
  intros Hmap H. apply returns_payload_of in H.
  destruct H as (location & module' & items & Hlink & Hiter & ->).
  apply location_call_frame in Hlink as ->.
  rewrite Hmap in Hiter. injection Hiter as <-.
  exists (map (fun nat_mapping =>
                 VDict [("nativeCidr", camelize nat_mapping false)])
            (chars s)).
  split; [reflexivity|]. clear Hmap. split.
  - rewrite length_map. induction s as [|c s IH]; simpl; auto.
  - induction s as [|c s IH]; simpl; intros i Hi; [lia|].
    destruct i as [|i]; simpl.
    + now exists c.
    + apply IH. lia.
Qed.

(** X8. The payload depends on the module object through the twelve
    parameters the body reads and through what the helper returns: two
    module objects that agree on these give the same result, whatever
    else (credentials, network, state) they hold. *)
Theorem construct_connection_reads_only (module1 module2 : AnsibleModule) :
  (forall k, In k read_params ->
     dict_get k (params module1) = dict_get k (params module2)) ->
  fst (location_call module1) = fst (location_call module2) ->
  fst (construct_connection get_object_link module1)
  = fst (construct_connection get_object_link module2).
Proof.
  intros Hagree Hloc. rewrite !construct_connection_run.
  destruct (location_call module1) as [r1 m1] eqn:E1.
  destruct (location_call module2) as [r2 m2] eqn:E2.
  apply location_call_frame in E1 as ->.
  apply location_call_frame in E2 as ->.
  simpl in Hloc. subst r2.
  destruct r1 as [e|location]; trivial.
  assert (payload_of (params module1) (params module1) location
          = payload_of (params module2) (params module2) location) as Hpay.
  { unfold payload_of, copied_params. cbn [map].
    rewrite !(Hagree "id"), !(Hagree "name"), !(Hagree "description"),
      !(Hagree "speed"), !(Hagree "high_availability"),
      !(Hagree "billing_term"), !(Hagree "customer_networks"),
      !(Hagree "primary_pairing_key"), !(Hagree "secondary_pairing_key"),
      !(Hagree "nat_enabled"), !(Hagree "tags")
      by (unfold read_params, copied_params; simpl; auto 20).
    reflexivity. }
  rewrite (Hagree "nat_mappings")
    by (unfold read_params, copied_params; simpl; auto 20).
  destruct (iterate (dict_get "nat_mappings" (params module2))); trivial.
  simpl. now rewrite Hpay.
Qed.

End Behaviour.

(** ** Further properties of the argument schema *)

Lemma dict_lookup_update_declared (k : string) (other d : dict) :
  dict_lookup k (dict_update d other) <> None
  <-> dict_lookup k d <> None \/ dict_lookup k other <> None.
Proof.
  unfold dict_update. revert d.
  induction other as [|[k0 v0] other IH]; intros d; simpl.
  - split; [auto | intros [H|H]; [trivial | congruence]].
  - rewrite IH. destruct (String.eqb k k0) eqn:E.
    + apply String.eqb_eq in E. subst k0. rewrite dict_lookup_set_same.
      split; intros _; [right | left]; discriminate.
    + apply String.eqb_neq in E. rewrite dict_lookup_set_other by trivial.
      tauto.
Qed.

Lemma dict_lookup_distinct_head (k : string) (d : dict) :
  existsb (String.eqb k) (dict_keys d) = false -> dict_lookup k d = None.
Proof.
  induction d as [|[k0 v0] d IH]; simpl; trivial.
  destruct (String.eqb k k0); simpl; [discriminate | exact IH].
Qed.

(** An update with a well-formed mapping: its entries win, the others stay. *)
Lemma dict_lookup_update (k : string) (other d : dict) :
  distinct (dict_keys other) = true ->
  dict_lookup k (dict_update d other)
  = match dict_lookup k other with
    | Some v => Some v
    | None => dict_lookup k d
    end.
Proof.
  unfold dict_update. revert d.
  induction other as [|[k0 v0] other IH]; intros d Hdis; simpl; trivial.
  simpl in Hdis. apply andb_true_iff in Hdis as [Hk0 Hdis].
  apply negb_true_iff in Hk0. rewrite IH by trivial.
  destruct (String.eqb k k0) eqn:E.
  - apply String.eqb_eq in E. subst k0.
    rewrite (dict_lookup_distinct_head k other Hk0).
    apply dict_lookup_set_same.
  - apply String.eqb_neq in E. now rewrite dict_lookup_set_other.
Qed.

(** X9. The parameters the schema of [main] accepts are those some shared
    fragment declares and the two pairing keys, and no other. *)
Theorem argument_spec_declared (client network state resolve_existing
  wait_for_server connection cloud_connection : dict) (k : string) :
  dict_lookup k (argument_spec client network state resolve_existing
                   wait_for_server connection cloud_connection) <> None
  <-> k = "primary_pairing_key" \/ k = "secondary_pairing_key"
      \/ exists fragment,
           In fragment [client; network; state; resolve_existing;
                        wait_for_server; connection; cloud_connection]
           /\ dict_lookup k fragment <> None.
Proof.
  unfold argument_spec. cbv zeta.
  rewrite !dict_lookup_update_declared. simpl.
  destruct (String.eqb_spec k "primary_pairing_key") as [->|Hp].
  { split; intros _; [left; reflexivity | right; discriminate]. }
  destruct (String.eqb_spec k "secondary_pairing_key") as [->|Hs].
  { split; intros _; [right; left; reflexivity | right; discriminate]. }
  split.
  - intros [H|H]; [|congruence]. right. right.
    destruct H as [[[[[[[H|H]|H]|H]|H]|H]|H]|H]; [congruence|..];
      eexists; (split; [|exact H]); auto 10.
  - intros [H|[H|(fragment & Hin & H)]]; [congruence..|]. left.
    destruct Hin as [<-|[<-|[<-|[<-|[<-|[<-|[<-|[]]]]]]]]; tauto.
Qed.

(** X10. Where fragments declare the same parameter, the one merged last
    decides: outside the two pairing keys, the entry of the schema is that
    of the last fragment, in the order of the updates of [main], that
    declares the parameter. *)
Theorem argument_spec_precedence (client network state resolve_existing
  wait_for_server connection cloud_connection : dict) (k : string) :
  Forall (fun fragment => distinct (dict_keys fragment) = true)
    [client; network; state; resolve_existing; wait_for_server; connection;
     cloud_connection] ->
  k <> "primary_pairing_key" -> k <> "secondary_pairing_key" ->
  dict_lookup k (argument_spec client network state resolve_existing
                   wait_for_server connection cloud_connection)
  = lookup_first k [cloud_connection; connection; wait_for_server;
                    resolve_existing; state; network; client].
Proof.
  intros Hwf Hp Hs.
  repeat (apply Forall_cons_iff in Hwf as [? Hwf]).
  unfold argument_spec. cbv zeta.
  rewrite !dict_lookup_update by (trivial; reflexivity). simpl.
  apply String.eqb_neq in Hp, Hs. rewrite Hp, Hs.
  repeat match goal with
         | |- context [dict_lookup k ?d] =>
             is_var d; destruct (dict_lookup k d); trivial
         end.
Qed.

(** ** The further properties at the examples *)

Lemma construct_connection_helper_raises_witness :
  raises (construct_connection failing_object_link) null_mappings_module
    (Exception "no location").
Proof.
  apply (construct_connection_helper_raises failing_object_link
           null_mappings_module).
  reflexivity.
Defined.

Lemma construct_connection_location_entry_witness :
  dict_lookup "location"
    (payload_of (params example_module) (params example_module)
       (VDict [("href", VStr "/locations/us-sea")]) [VStr "10.0.0.0/24"])
  = Some (VDict [("href", VStr "/locations/us-sea")]).
Proof.
  apply (construct_connection_location_entry href_object_link example_module).
  - reflexivity.
  - reflexivity.
  - reflexivity.
Defined.

Lemma construct_connection_customer_networks_witness :
  dict_lookup "customerNetworks"
    (payload_of (params example_module) (params example_module)
       (VDict [("href", VStr "/locations/us-sea")]) [VStr "10.0.0.0/24"])
  = Some (VList [customer_network "10.0.0.0/24" "My CIDR address"]).
Proof.
  apply (construct_connection_customer_networks href_object_link
           example_module _ [("10.0.0.0/24", "My CIDR address")]).
  - reflexivity.
  - reflexivity.
Defined.


Lemma construct_connection_raises_type_error_witness :
  raises (construct_connection href_object_link) int_mappings_module
    (TypeError "'int' object is not iterable").
Proof.
  apply (construct_connection_raises_type_error href_object_link
           (get_object_link_model_frame href_of_id href_of_href)
           int_mappings_module (VDict [("href", VStr "/locations/us-sea")])
           "int").
  - reflexivity.
  - right. right. split; [exists 24%Z|]; reflexivity.
Defined.

Lemma construct_connection_nat_entries_witness :
  dict_lookup "nat"
    (payload_of (params example_module) (params example_module)
       (VDict [("href", VStr "/locations/us-sea")]) [VStr "10.0.0.0/24"])
  = Some (VDict [ ("enabled", VBool true);
                  ("mappings",
                   VList [VDict [("nativeCidr", VStr "10.0.0.0/24")]]) ]).
Proof.
  apply (construct_connection_nat_entries href_object_link
           (get_object_link_model_frame href_of_id href_of_href)
           example_module _ (VBool true) [VStr "10.0.0.0/24"]).
  - reflexivity.
  - reflexivity.
  - reflexivity.
  - reflexivity.
  - reflexivity.
Defined.

Lemma construct_connection_string_mappings_witness :
  exists mappings,
    dict_lookup "nat"
      (payload_of (params string_mappings_module)
         (params string_mappings_module)
         (VDict [("href", VStr "/locations/us-sea")]) (chars "10.0.0.0/24"))
    = Some (VDict [ ("enabled", VBool true); ("mappings", VList mappings) ])
    /\ List.length mappings = 11%nat
    /\ nth_error mappings 0 = Some (VDict [("nativeCidr", VStr "1")]).
Proof.
  destruct (construct_connection_string_mappings href_object_link
              (get_object_link_model_frame href_of_id href_of_href)
              string_mappings_module
              (payload_of (params string_mappings_module)
                 (params string_mappings_module)
                 (VDict [("href", VStr "/locations/us-sea")])
                 (chars "10.0.0.0/24"))
              "10.0.0.0/24" eq_refl eq_refl)
    as (mappings & Hnat & Hlen & Hnth).
  exists mappings. split; [exact Hnat|]. split; [exact Hlen|].
  destruct (Hnth 0%nat) as (c & Hc & Hm); [simpl; lia|].
  simpl in Hc. injection Hc as <-. exact Hm.
Defined.

Lemma construct_connection_reads_only_witness :
  fst (construct_connection href_object_link example_module)
  = fst (construct_connection href_object_link credentials_module).
Proof.
  apply (construct_connection_reads_only href_object_link
           (get_object_link_model_frame href_of_id href_of_href)).
  - intros k Hin. unfold read_params, copied_params in Hin. simpl in Hin.
    repeat (destruct Hin as [<-|Hin]; [reflexivity|]). destruct Hin.
  - reflexivity.
Defined.

Lemma argument_spec_precedence_witness :
  dict_lookup "name"
    (argument_spec [] [] [] [] []
       [("name", VDict [("type", VStr "str"); ("required", VBool true)])]
       [("name", VDict [("type", VStr "str")])])
  = Some (VDict [("type", VStr "str")]).
Proof.
  apply (argument_spec_precedence [] [] [] [] []
           [("name", VDict [("type", VStr "str"); ("required", VBool true)])]
           [("name", VDict [("type", VStr "str")])] "name").
  - repeat constructor.
  - discriminate.
  - discriminate.
Defined.

(** ** What the function leaves untouched in the store *)

Section StoreFrame.

Import Store.
Local Open Scope store_scope.

Variable w0 : world.

Lemma keeps_refl : keeps w0 w0.
Proof. split; [reflexivity | exists []; now rewrite app_nil_r]. Qed.

Lemma replace_created {A : Type} (old created : list A) (a : nat) (x : A) :
  List.length old <= a ->
  replace a x (old ++ created) = old ++ replace (a - List.length old) x created.
Proof.
  revert a. induction old as [|y old IH]; intros a Ha; simpl.
  - now rewrite Nat.sub_0_r.
  - destruct a as [|a]; simpl in *; [lia|]. rewrite IH by lia. reflexivity.
Qed.

(** A value read in [old] is read the same once objects are created. *)
Lemma read_back_created (old created : list object) (depth : nat) :
  forall r v,
    read_back depth old r = Some v ->
    read_back depth (old ++ created) r = Some v.
Proof.
  induction depth as [|depth IH]; intros r v; destruct r; simpl; trivial.
  assert (forall items vs,
            fold_right
              (fun r acc =>
                 match read_back depth old r, acc with
                 | Some v, Some vs => Some (v :: vs)
                 | _, _ => None
                 end) (Some []) items = Some vs ->
            fold_right
              (fun r acc =>
                 match read_back depth (old ++ created) r, acc with
                 | Some v, Some vs => Some (v :: vs)
                 | _, _ => None
                 end) (Some []) items = Some vs) as Hitems.
  { induction items as [|r items IHitems]; simpl; intros vs Hvs; trivial.
    destruct (read_back depth old r) as [x|] eqn:Hx; [|discriminate].
    rewrite (IH _ _ Hx).
    destruct (fold_right _ _ items) as [xs|] eqn:Hxs in Hvs; [|discriminate].
    now rewrite (IHitems _ Hxs). }
  assert (forall (entries : list (string * ref_value)) vs,
            fold_right
              (fun kv acc =>
                 match read_back depth old (snd kv), acc with
                 | Some v, Some vs => Some ((fst kv, v) :: vs)
                 | _, _ => None
                 end) (Some []) entries = Some vs ->
            fold_right
              (fun kv acc =>
                 match read_back depth (old ++ created) (snd kv), acc with
                 | Some v, Some vs => Some ((fst kv, v) :: vs)
                 | _, _ => None
                 end) (Some []) entries = Some vs) as Hentries.
  { induction entries as [|kv entries IHentries]; simpl; intros vs Hvs;
      trivial.
    destruct (read_back depth old (snd kv)) as [x|] eqn:Hx; [|discriminate].
    rewrite (IH _ _ Hx).
    destruct (fold_right _ _ entries) as [xs|] eqn:Hxs in Hvs;
      [|discriminate].
    now rewrite (IHentries _ Hxs). }
  destruct (nth_error old a) as [o|] eqn:Ha; [|discriminate].
  rewrite nth_error_app1 by (apply nth_error_Some; congruence).
  rewrite Ha. destruct o as [items|entries]; intros H.
  - destruct (fold_right _ (Some []) items) as [vs|] eqn:Hvs in H;
      [|discriminate].
    now rewrite (Hitems _ _ Hvs).
  - destruct (fold_right _ (Some []) entries) as [vs|] eqn:Hvs in H;
      [|discriminate].
    now rewrite (Hentries _ _ Hvs).
Qed.

Lemma safe_ret {A : Type} (a : A) (Q : A -> Prop) : Q a -> safe w0 (ret a) Q.
Proof. intros HQ w Hw. simpl. split; [trivial | now intros a' [= <-]]. Qed.

Lemma safe_raise {A : Type} (e : error) (Q : A -> Prop) :
  safe w0 (raise e) Q.
Proof. intros w Hw. simpl. split; [trivial | discriminate]. Qed.

Lemma safe_bind {A B : Type} (c : H A) (k : A -> H B)
  (P : A -> Prop) (Q : B -> Prop) :
  safe w0 c P -> (forall a, P a -> safe w0 (k a) Q) -> safe w0 (bind c k) Q.
Proof.
  intros Hc Hk w Hw. unfold bind. destruct (Hc w Hw) as [Hkeep HP].
  destruct (c w) as [[e|a] w']; simpl in *.
  - split; [trivial | discriminate].
  - apply Hk; auto.
Qed.

Lemma safe_weaken {A : Type} (c : H A) (P Q : A -> Prop) :
  safe w0 c P -> (forall a, P a -> Q a) -> safe w0 c Q.
Proof.
  intros Hc HPQ w Hw. destruct (Hc w Hw) as [Hkeep HP]. split; auto.
Qed.

Lemma safe_new_object (o : object) :
  safe w0 (new_object o) (fun a => List.length (objects w0) <= a).
Proof.
  intros w [Hp [created Hobj]]. unfold new_object. simpl. split.
  - split; [trivial|]. exists (created ++ [o]).
    now rewrite Hobj, app_assoc.
  - intros a [= <-]. rewrite Hobj, length_app. lia.
Qed.

Lemma safe_load (a : addr) : safe w0 (load a) (fun _ => True).
Proof.
  intros w Hw. unfold load.
  destruct (nth_error (objects w) a); simpl; auto.
Qed.

Lemma safe_store (a : addr) (o : object) :
  List.length (objects w0) <= a -> safe w0 (store a o) (fun _ => True).
Proof.
  intros Ha w [Hp [created Hobj]]. unfold store. simpl. split; [|auto].
  split; [trivial|]. rewrite Hobj, replace_created by trivial.
  eexists. reflexivity.
Qed.

Lemma safe_load_dict (d : ref_value) : safe w0 (load_dict d) (fun _ => True).
Proof.
  destruct d; try apply safe_raise.
  apply safe_bind with (P := fun _ => True); [apply safe_load|].
  intros [items|entries] _; [apply safe_raise | now apply safe_ret].
Qed.

Lemma safe_dict_get (d : ref_value) (k : string) :
  safe w0 (dict_get d k) (fun _ => True).
Proof.
  apply safe_bind with (P := fun _ => True); [apply safe_load_dict|].
  intros entries _. destruct (entry_lookup k entries); now apply safe_ret.
Qed.

Lemma safe_dict_getitem (d : ref_value) (k : string) :
  safe w0 (dict_getitem d k) (fun _ => True).
Proof.
  apply safe_bind with (P := fun _ => True); [apply safe_load_dict|].
  intros entries _.
  destruct (entry_lookup k entries); [now apply safe_ret | apply safe_raise].
Qed.

Lemma safe_dict_setitem (d : ref_value) (k : string) (v : ref_value) :
  created_since w0 d -> safe w0 (dict_setitem d k v) (fun _ => True).
Proof.
  intros Hd. destruct d; try apply safe_raise. simpl in Hd.
  apply safe_bind with (P := fun _ => True); [apply safe_load|].
  intros [items|entries] _; [apply safe_raise | now apply safe_store].
Qed.

Lemma safe_list_getitem (l : ref_value) (i : nat) :
  safe w0 (list_getitem l i) (fun _ => True).
Proof.
  destruct l; try apply safe_raise.
  apply safe_bind with (P := fun _ => True); [apply safe_load|].
  intros [items|entries] _; [|apply safe_raise].
  destruct (nth_error items i); [now apply safe_ret | apply safe_raise].
Qed.

Lemma safe_list_append (l v : ref_value) :
  created_since w0 l -> safe w0 (list_append l v) (fun _ => True).
Proof.
  intros Hl. destruct l; try apply safe_raise. simpl in Hl.
  apply safe_bind with (P := fun _ => True); [apply safe_load|].
  intros [items|entries] _; [now apply safe_store | apply safe_raise].
Qed.

Lemma safe_for_each {A : Type} (l : list A) (body : A -> H unit) :
  (forall x, safe w0 (body x) (fun _ => True)) ->
  safe w0 (for_each l body) (fun _ => True).
Proof.
  intros Hbody. induction l as [|x xs IH]; simpl.
  - now apply safe_ret.
  - apply safe_bind with (P := fun _ => True); auto.
Qed.

Lemma safe_mapM {A B : Type} (f : A -> H B) (l : list A) (Q : B -> Prop) :
  (forall x, safe w0 (f x) Q) -> safe w0 (mapM f l) (Forall Q).
Proof.
  intros Hf. induction l as [|x xs IH]; simpl.
  - now apply safe_ret.
  - apply safe_bind with (P := Q); [apply Hf|]. intros y Hy.
    apply safe_bind with (P := Forall Q); [apply IH|]. intros ys Hys.
    apply safe_ret. now constructor.
Qed.

Lemma safe_dict_update (d other : ref_value) :
  created_since w0 d -> safe w0 (dict_update d other) (fun _ => True).
Proof.
  intros Hd. apply safe_bind with (P := fun _ => True);
    [apply safe_load_dict|].
  intros entries _. apply safe_for_each. intros kv.
  now apply safe_dict_setitem.
Qed.

Lemma safe_new_dict (pairs : list (string * ref_value)) :
  safe w0 (new_dict pairs) (created_since w0).
Proof.
  apply safe_bind with (P := fun a => List.length (objects w0) <= a);
    [apply safe_new_object|].
  intros a Ha. now apply safe_ret.
Qed.

Lemma safe_iterate (v : ref_value) : safe w0 (iterate v) (fun _ => True).
Proof.
  destruct v; try apply safe_raise; [now apply safe_ret|].
  apply safe_bind with (P := fun _ => True); [apply safe_load|].
  intros [items|entries] _; now apply safe_ret.
Qed.

Lemma safe_params_get (k : string) : safe w0 (params_get k) (fun _ => True).
Proof.
  intros w Hw. unfold params_get.
  apply (safe_dict_get (RRef (params_ref w)) k w Hw).
Qed.

(** The case transform writes to the objects it creates and to no other:
    what it returns is a scalar or a reference to a new object. *)
Lemma safe_camelize (depth : nat) (complex_type : ref_value)
  (capitalize_first : bool) :
  safe w0 (camelize depth complex_type capitalize_first) (created_since w0).
Proof.
  revert complex_type.
  induction depth as [|depth IH]; intros complex_type; simpl;
    [apply safe_raise|].
  destruct complex_type as [| | | |a]; try (now apply safe_ret).
  apply safe_bind with (P := fun _ => True); [apply safe_load|].
  intros [items|entries] _.
  - apply safe_bind with (P := fun a => List.length (objects w0) <= a);
      [apply safe_new_object|].
    intros new_type Hnew.
    apply safe_bind with (P := fun _ => True); [|intros; now apply safe_ret].
    apply safe_for_each. intros i.
    apply safe_bind with (P := fun _ => True);
      [apply (safe_list_getitem (RRef a) i)|].
    intros v _.
    apply safe_bind with (P := created_since w0); [apply IH|].
    intros v' _. now apply (safe_list_append (RRef new_type) v').
  - apply safe_bind with (P := fun a => List.length (objects w0) <= a);
      [apply safe_new_object|].
    intros new_type Hnew.
    apply safe_bind with (P := fun _ => True); [|intros; now apply safe_ret].
    apply safe_for_each. intros key.
    apply safe_bind with (P := fun _ => True);
      [apply (safe_dict_getitem (RRef a) key)|].
    intros v _.
    apply safe_bind with (P := created_since w0); [apply IH|].
    intros v' _.
    now apply (safe_dict_setitem (RRef new_type)
                 (snake_to_camel key capitalize_first) v').
Qed.

Lemma safe_get_object_link_model (path_prefix id_param href_param : string) :
  safe w0 (get_object_link_model path_prefix id_param href_param)
    (fun _ => True).
Proof.
  apply safe_bind with (P := fun _ => True); [apply safe_params_get|].
  intros id _.
  apply safe_bind with (P := fun _ => True); [apply safe_params_get|].
  intros href _.
  destruct id; destruct href;
    try (now apply safe_ret);
    apply safe_weaken with (P := created_since w0);
    try apply safe_new_dict; trivial.
Qed.

Variable get_object_link : string -> string -> string -> H ref_value.
Variable depth : nat.

(** The helper writes to no object that was there when it was called. *)
Hypothesis get_object_link_safe :
  forall path_prefix id_param href_param,
    safe w0 (get_object_link path_prefix id_param href_param) (fun _ => True).

Lemma safe_construct_connection :
  safe w0 (construct_connection get_object_link depth) (fun _ => True).
Proof.
  unfold construct_connection.
  apply safe_bind with (P := fun _ => True).
  { apply safe_weaken with (P := Forall (fun _ => True)); [|trivial].
    apply safe_mapM. intros k.
    apply safe_bind with (P := fun _ => True); [apply safe_params_get|].
    intros v _. now apply safe_ret. }
  intros pairs _.
  apply safe_bind with (P := created_since w0); [apply safe_new_dict|].
  intros connection Hconnection.
  apply safe_bind with (P := fun _ => True); [apply get_object_link_safe|].
  intros location _.
  apply safe_bind with (P := fun _ => True); [apply safe_params_get|].
  intros enabled _.
  apply safe_bind with (P := fun _ => True); [apply safe_params_get|].
  intros nat_mappings _.
  apply safe_bind with (P := fun _ => True); [apply safe_iterate|].
  intros items _.
  apply safe_bind with (P := fun _ => True).
  { apply safe_weaken with (P := Forall (created_since w0)); [|trivial].
    apply safe_mapM. intros nat_mapping. apply safe_new_dict. }
  intros records _.
  apply safe_bind with (P := fun _ => True).
  { apply safe_weaken with (P := fun a => List.length (objects w0) <= a);
      [apply safe_new_object | trivial]. }
  intros mappings _.
  apply safe_bind with (P := fun _ => True).
  { apply safe_weaken with (P := created_since w0);
      [apply safe_new_dict | trivial]. }
  intros nat _.
  apply safe_bind with (P := fun _ => True).
  { apply safe_weaken with (P := created_since w0);
      [apply safe_new_dict | trivial]. }
  intros other _.
  apply safe_bind with (P := fun _ => True);
    [now apply safe_dict_update|].
  intros _ _.
  apply safe_bind with (P := created_since w0); [apply safe_camelize|].
  intros connection' Hconnection'.
  apply safe_bind with (P := fun _ => True); [apply safe_params_get|].
  intros tags _.
  apply safe_bind with (P := fun _ => True).
  { apply safe_weaken with (P := created_since w0);
      [apply safe_new_dict | trivial]. }
  intros other' _.
  apply safe_bind with (P := fun _ => True);
    [now apply safe_dict_update|].
  intros _ _. now apply safe_ret.
Qed.

(** C8. Whether the function returns or raises, and however deep the case
    transform may recurse, it writes only to objects it created itself:
    [module.params] refers to the object it referred to before the call,
    every list and mapping that existed before the call has the contents
    it had, and so the parameter mapping reads back as the value it was. *)
Theorem construct_connection_keeps_objects :
  params_ref (snd (construct_connection get_object_link depth w0))
  = params_ref w0
  /\ (forall a o,
        nth_error (objects w0) a = Some o ->
        nth_error
          (objects (snd (construct_connection get_object_link depth w0))) a
        = Some o)
  /\ (forall n p,
        read_back n (objects w0) (RRef (params_ref w0)) = Some p ->
        read_back n
          (objects (snd (construct_connection get_object_link depth w0)))
          (RRef (params_ref (snd (construct_connection get_object_link depth
                                    w0))))
        = Some p).
Proof.
  destruct (safe_construct_connection w0 keeps_refl)
    as [[Hparams [created Hobjects]] _].
  split; [exact Hparams|]. split.
  - intros a o Ha. rewrite Hobjects. rewrite nth_error_app1; [exact Ha|].
    apply nth_error_Some. congruence.
  - intros n p Hp. rewrite Hparams, Hobjects.
    now apply read_back_created.
Qed.

End StoreFrame.

(** ** The store model at the examples *)

Lemma construct_connection_keeps_objects_witness :
  Store.params_ref
    (snd (Store.construct_connection Store.get_object_link_model 1000
            example_world))
  = Store.params_ref example_world
  /\ (forall a o,
        nth_error (Store.objects example_world) a = Some o ->
        nth_error
          (Store.objects
             (snd (Store.construct_connection Store.get_object_link_model 1000
                     example_world))) a
        = Some o)
  /\ (forall n p,
        Store.read_back n (Store.objects example_world)
          (Store.RRef (Store.params_ref example_world)) = Some p ->
        Store.read_back n
          (Store.objects
             (snd (Store.construct_connection Store.get_object_link_model 1000
                     example_world)))
          (Store.RRef
             (Store.params_ref
                (snd (Store.construct_connection Store.get_object_link_model
                        1000 example_world))))
        = Some p).
Proof.
  apply (construct_connection_keeps_objects example_world
           Store.get_object_link_model 1000).
  intros path_prefix id_param href_param.
  apply safe_get_object_link_model.
Defined.

(** The property can fail: one write of [tags] to the parameter mapping
    and the world no longer keeps what it had. *)
Lemma write_to_params_not_kept :
  ~ Store.keeps example_world
      (snd (Store.dict_setitem (Store.RRef (Store.params_ref example_world))
              "tags" Store.RNone example_world)).
Proof.
  intros [_ [created Hobjects]].
  apply (f_equal (fun objs => nth_error objs 4)) in Hobjects.
  vm_compute in Hobjects. discriminate.
Qed.

(** On the example inputs the function returns in the store what it
    returns in the first model, and raises where it raises there. *)
Lemma store_result_agrees :
  Forall (fun module => store_result (params module)
                        = value_result (params module))
    [ example_module; simple_module; snake_network_module;
      string_mappings_module; null_mappings_module; int_mappings_module;
      credentials_module ].
Proof. repeat constructor. Qed.
